(** * The request gate of the OpenClaw dashboard (src/middleware.js)

    A shallow embedding of the authentication and rate-limiting middleware:
    the module-level [rateLimitMap] becomes an explicit table that every
    call receives and returns, [Date.now()] becomes the argument [now], and
    the lines written to the console are collected in the outcome. *)

From Stdlib Require Import ZArith String Ascii.
From stdpp Require Import gmap strings list fin_maps.

Local Open Scope Z_scope.
Local Open Scope string_scope.

(** ** JavaScript values used by the middleware *)

(** A value that is a string, or [null]/[undefined] ([None]).  The empty
    string, [null] and [undefined] are the falsy ones. *)
Definition truthy (v : option string) : bool :=
  match v with
  | Some (String _ _) => true
  | _ => false
  end.

(** [a || b] *)
Definition js_or (a b : option string) : option string :=
  if truthy a then a else b.

(** [s.startsWith(p)] *)
Fixpoint startsWith (s p : string) {struct p} : bool :=
  match p with
  | EmptyString => true
  | String c p' =>
      match s with
      | EmptyString => false
      | String d s' => if Ascii.eqb d c then startsWith s' p' else false
      end
  end.

(** [s.split(sep)] for a separator of one character; the result is never
    empty. *)
Fixpoint split (sep : ascii) (s : string) : list string :=
  match s with
  | EmptyString => [EmptyString]
  | String c s' =>
      if Ascii.eqb c sep then EmptyString :: split sep s'
      else match split sep s' with
           | [] => [String c EmptyString]
           | w :: ws => String c w :: ws
           end
  end.

(** ** Configuration *)

Definition PROTECTED_ROUTES : list string :=
  [ "/api/settings"; "/api/tokens"; "/api/relationships"; "/api/goals";
    "/api/learning"; "/api/workflows"; "/api/inspiration"; "/api/bounties";
    "/api/content"; "/api/schedules"; "/api/calendar"; "/api/memory" ].

Definition PUBLIC_ROUTES : list string :=
  [ "/api/health"; "/api/setup/status" ].

Definition RATE_LIMIT_WINDOW : Z := 60 * 1000.
Definition RATE_LIMIT_MAX : Z := 100.

(** [process.env]: only [DASHBOARD_API_KEY] is read. *)
Record Env := { DASHBOARD_API_KEY : option string }.

(** ** The rate table *)

Record RateRecord := { timestamp : Z; count : Z }.

Abbreviation RateTable := (gmap string RateRecord).

(** [checkRateLimit(ip)], with the clock reading and the table explicit.
    [record.count++] mutates the object held by the map, which is an insert
    of the updated record under the same key. *)
Definition checkRateLimit (now : Z) (ip : string) (rateLimitMap : RateTable)
  : bool * RateTable :=
  match rateLimitMap !! ip with
  | None => (true, <[ip := {| timestamp := now; count := 1 |}]> rateLimitMap)
  | Some record =>
      if now - timestamp record >? RATE_LIMIT_WINDOW
      then (true, <[ip := {| timestamp := now; count := 1 |}]> rateLimitMap)
      else if count record >=? RATE_LIMIT_MAX
      then (false, rateLimitMap)
      else (true, <[ip := {| timestamp := timestamp record;
                             count := count record + 1 |}]> rateLimitMap)
  end.

(** ** Requests and responses *)

(** [request.nextUrl.pathname], [request.headers] (a Headers object, names
    in lower case) and [request.nextUrl.searchParams] (pairs in order, [get]
    returns the first value of a name). *)
Record Request := {
  pathname : string;
  headers : gmap string string;
  searchParams : list (string * string)
}.

Definition headers_get (req : Request) (name : string) : option string :=
  headers req !! name.

Definition searchParams_get (req : Request) (name : string) : option string :=
  snd <$> List.find (fun kv => String.eqb (fst kv) name) (searchParams req).

Inductive Body :=
| NoBody
| JsonBody (fields : list (string * string)).

(** What the middleware hands back: [forwarded] is [NextResponse.next()],
    otherwise a response of its own made by [NextResponse.json]. *)
Record Response := {
  forwarded : bool;
  status : Z;
  body : Body;
  response_headers : gmap string string
}.

Definition NextResponse_next : Response :=
  {| forwarded := true; status := 200; body := NoBody; response_headers := ∅ |}.

Definition NextResponse_json (fields : list (string * string)) (st : Z)
    (hs : gmap string string) : Response :=
  {| forwarded := false; status := st; body := JsonBody fields;
     response_headers := hs |}.

(** [response.headers.set(name, value)] *)
Definition headers_set (name value : string) (r : Response) : Response :=
  {| forwarded := forwarded r; status := status r; body := body r;
     response_headers := <[name := value]> (response_headers r) |}.

Inductive Console := console_log | console_warn.

Record Outcome := {
  response : Response;
  table : RateTable;
  console : list (Console * string)
}.

(** ** The middleware *)

Definition isPublicRoute (p : string) : bool :=
  existsb (fun route => startsWith p route) PUBLIC_ROUTES.

Definition isProtectedRoute (p : string) : bool :=
  existsb (fun route => startsWith p route) PROTECTED_ROUTES.

(** [x-forwarded-for ?.split(',')[0] || x-real-ip || 'unknown'] *)
Definition clientIp (req : Request) : string :=
  default "unknown"
    (js_or (js_or (headers_get req "x-forwarded-for" ≫= fun v => head (split "," v))
                  (headers_get req "x-real-ip"))
           (Some "unknown")).

(** [x-api-key || searchParams.get('api_key')] *)
Definition apiKey (req : Request) : option string :=
  js_or (headers_get req "x-api-key") (searchParams_get req "api_key").

Definition rateLimitedResponse : Response :=
  NextResponse_json [("error", "Rate limit exceeded. Please slow down.")] 429
    {["Retry-After" := "60"]}.

Definition unauthorizedResponse : Response :=
  NextResponse_json [("error", "Unauthorized - Invalid or missing API key")] 401 ∅.

Definition securedResponse : Response :=
  headers_set "X-XSS-Protection" "1; mode=block"
    (headers_set "X-Frame-Options" "DENY"
       (headers_set "X-Content-Type-Options" "nosniff" NextResponse_next)).

Definition middleware (env : Env) (now : Z) (request : Request)
    (rateLimitMap : RateTable) : Outcome :=
  let pathname := pathname request in
  if negb (startsWith pathname "/api/") then
    {| response := NextResponse_next; table := rateLimitMap; console := [] |}
  else if isPublicRoute pathname then
    {| response := NextResponse_next; table := rateLimitMap; console := [] |}
  else
    let isProtected := isProtectedRoute pathname in
    let ip := clientIp request in
    let '(ok, rateLimitMap) := checkRateLimit now ip rateLimitMap in
    if negb ok then
      {| response := rateLimitedResponse; table := rateLimitMap;
         console := [(console_warn,
           "[SECURITY] Rate limit exceeded for " ++ ip ++ ": " ++ pathname)] |}
    else if isProtected then
      let apiKey := apiKey request in
      let expectedKey := DASHBOARD_API_KEY env in
      if negb (truthy expectedKey) then
        {| response := NextResponse_next; table := rateLimitMap;
           console := [(console_log,
             "[INFO] DASHBOARD_API_KEY not set - allowing unauthenticated access to: "
               ++ pathname)] |}
      else if negb (bool_decide (apiKey = expectedKey)) then
        {| response := unauthorizedResponse; table := rateLimitMap;
           console := [(console_warn,
             "[SECURITY] Unauthorized API access attempt: " ++ pathname
               ++ " from " ++ ip)] |}
      else
        {| response := securedResponse; table := rateLimitMap; console := [] |}
    else
      {| response := securedResponse; table := rateLimitMap; console := [] |}.

(** ** Derived notions used to state the properties *)

(** The requests that reach the rate limiter: API paths that are not
    public. *)
Definition rateGated (req : Request) : bool :=
  startsWith (pathname req) "/api/" && negb (isPublicRoute (pathname req)).

(** A record that a request at [now] would replace: the window has
    elapsed. *)
Definition expired (now : Z) (r : RateRecord) : Prop :=
  now - timestamp r > RATE_LIMIT_WINDOW.

(** The request is under the ceiling: the rate limiter lets it through. *)
Definition underCeiling (now : Z) (req : Request) (m : RateTable) : bool :=
  fst (checkRateLimit now (clientIp req) m).

(** A shared secret is configured: the variable is set and not empty. *)
Definition secretConfigured (env : Env) : bool := truthy (DASHBOARD_API_KEY env).

Definition hasSecurityHeaders (r : Response) : Prop :=
  response_headers r !! "X-Content-Type-Options" = Some "nosniff" /\
  response_headers r !! "X-Frame-Options" = Some "DENY" /\
  response_headers r !! "X-XSS-Protection" = Some "1; mode=block".

Definition noSecurityHeaders (r : Response) : Prop :=
  response_headers r !! "X-Content-Type-Options" = None /\
  response_headers r !! "X-Frame-Options" = None /\
  response_headers r !! "X-XSS-Protection" = None.


(** The tables a process can hold: it starts empty and changes only
    through calls of the middleware. *)
Inductive reachable (env : Env) : RateTable -> Prop :=
| reachable_start : reachable env ∅
| reachable_call m now req :
    reachable env m -> reachable env (table (middleware env now req m)).

(** Sample data for the closed instances. *)
Definition request_of (p : string) (hs : list (string * string))
    (qs : list (string * string)) : Request :=
  {| pathname := p; headers := list_to_map hs; searchParams := qs |}.

Definition no_secret : Env := {| DASHBOARD_API_KEY := None |}.
Definition secret_abc123 : Env := {| DASHBOARD_API_KEY := Some "abc123" |}.

(** ** Notions used in the proofs *)

Definition incomparable (a b : string) : bool :=
  negb (startsWith a b) && negb (startsWith b a).

Definition fresh_record (now : Z) : RateRecord := {| timestamp := now; count := 1 |}.

Definition bumped (r : RateRecord) : RateRecord :=
  {| timestamp := timestamp r; count := count r + 1 |}.

(** The four ways a call of [checkRateLimit] can go. *)
Inductive RateStep (now : Z) (ip : string) (m : RateTable) : bool * RateTable -> Prop :=
| rate_first :
    m !! ip = None ->
    RateStep now ip m (true, <[ip := fresh_record now]> m)
| rate_reset r :
    m !! ip = Some r -> expired now r ->
    RateStep now ip m (true, <[ip := fresh_record now]> m)
| rate_reject r :
    m !! ip = Some r -> now - timestamp r <= RATE_LIMIT_WINDOW ->
    RATE_LIMIT_MAX <= count r ->
    RateStep now ip m (false, m)
| rate_count r :
    m !! ip = Some r -> now - timestamp r <= RATE_LIMIT_WINDOW ->
    count r < RATE_LIMIT_MAX ->
    RateStep now ip m (true, <[ip := bumped r]> m).

(** The requests that count against [ip]: rate-gated and from [ip]. *)
Definition countedFor (ip : string) (req : Request) : bool :=
  rateGated req && bool_decide (clientIp req = ip).


(** The credential stage lets the request through. *)
Definition credentialsPass (env : Env) (req : Request) : bool :=
  negb (isProtectedRoute (pathname req))
  || negb (secretConfigured env)
  || bool_decide (apiKey req = DASHBOARD_API_KEY env).


(** The scenario of the specification: a public request from another
    identifier, then 101 requests from 1.2.3.4 to [/api/goals] with the
    right key, 100 ms apart. *)
Definition scenario : list (Z * Request) :=
  (900, request_of "/api/health" [("x-forwarded-for", "5.6.7.8")] [])
  :: ((fun i : nat =>
         (1000 + 100 * Z.of_nat i,
          request_of "/api/goals"
            [("x-forwarded-for", "1.2.3.4"); ("x-api-key", "abc123")] []))
      <$> seq 0 101).




(** ** Notions used for the further properties *)

(** [s.includes(c)] for one character. *)
Fixpoint hasChar (c : ascii) (s : string) : bool :=
  match s with
  | EmptyString => false
  | String d s' => Ascii.eqb d c || hasChar c s'
  end.

(** The table a run leaves behind. *)
Fixpoint tableAfter (env : Env) (m : RateTable) (evs : list (Z * Request))
  : RateTable :=
  match evs with
  | [] => m
  | (now, req) :: rest => tableAfter env (table (middleware env now req m)) rest
  end.

(** The outcome of the paths that skip the gate. *)
Definition untouched (m : RateTable) : Outcome :=
  {| response := NextResponse_next; table := m; console := [] |}.

(** The identifiers of the rate-gated requests of a run. *)
Definition gatedIdentifiers (evs : list (Z * Request)) : gset string :=
  list_to_set (clientIp ∘ snd <$> List.filter (fun ev => rateGated (snd ev)) evs).

(** The first segment of [x-forwarded-for] is unusable: the header is
    absent, empty, or starts with a comma. *)
Definition noForwardedFor (req : Request) : Prop :=
  headers_get req "x-forwarded-for" = None \/
  headers_get req "x-forwarded-for" = Some "" \/
  exists rest, headers_get req "x-forwarded-for" = Some (String "," rest).

(** What is known of every record after the requests [seen]. *)
Definition recordsBoundedBy (seen : list (Z * Request)) (m : RateTable) : Prop :=
  forall ip r, m !! ip = Some r ->
    1 <= count r <= RATE_LIMIT_MAX /\
    count r <= Z.of_nat (length (List.filter (fun ev => countedFor ip (snd ev)) seen)) /\
    exists req, In (timestamp r, req) seen /\ countedFor ip req = true.

(** ** Path prefixes *)

Lemma startsWith_trans p a q :
  startsWith p a = true -> startsWith a q = true -> startsWith p q = true.
Proof.
  revert p a. induction q as [|c q IH]; intros p a Hpa Haq; [done|].
  destruct a as [|d a]; simpl in *; [done|].
  destruct p as [|e p]; [done|].
  destruct (Ascii.eqb_spec e d) as [->|]; [|done].
  destruct (Ascii.eqb d c); [|done]. by apply (IH p a).
Qed.

Lemma startsWith_comparable p a b :
  startsWith p a = true -> startsWith p b = true ->
  startsWith a b = true \/ startsWith b a = true.
Proof.
  revert a b. induction p as [|e p IH]; intros a b Ha Hb.
  - destruct a; simpl in *; [|done]. by right.
  - destruct a as [|c a]; [by right|]. destruct b as [|d b]; [by left|].
    simpl in *.
    destruct (Ascii.eqb_spec e c) as [->|]; [|done].
    destruct (Ascii.eqb_spec c d) as [->|]; [|done].
    rewrite Ascii.eqb_refl. by apply IH.
Qed.

Lemma some_route_under p q routes :
  forallb (fun a => startsWith a q) routes = true ->
  existsb (fun route => startsWith p route) routes = true ->
  startsWith p q = true.
Proof.
  induction routes as [|a routes IH]; simpl; [done|].
  intros [Ha Hall]%andb_prop [Hp|Hp]%orb_prop.
  - by apply startsWith_trans with a.
  - by apply IH.
Qed.

Lemma some_route_apart p xs ys :
  forallb (fun a => forallb (incomparable a) ys) xs = true ->
  existsb (fun route => startsWith p route) xs = true ->
  existsb (fun route => startsWith p route) ys = false.
Proof.
  intros Hall Hx. apply not_true_is_false. intros Hy.
  apply existsb_exists in Hx as (a & Hain & Hpa).
  apply existsb_exists in Hy as (b & Hbin & Hpb).
  rewrite forallb_forall in Hall. specialize (Hall a Hain).
  rewrite forallb_forall in Hall. specialize (Hall b Hbin).
  unfold incomparable in Hall. apply andb_prop in Hall as [H1 H2].
  destruct (startsWith_comparable p a b Hpa Hpb) as [H|H];
    rewrite H in *; done.
Qed.

Lemma public_is_api p : isPublicRoute p = true -> startsWith p "/api/" = true.
Proof. by apply some_route_under. Qed.

Lemma protected_is_api p : isProtectedRoute p = true -> startsWith p "/api/" = true.
Proof. by apply some_route_under. Qed.

Lemma protected_not_public p : isProtectedRoute p = true -> isPublicRoute p = false.
Proof. by apply some_route_apart. Qed.

Lemma protected_rateGated req :
  isProtectedRoute (pathname req) = true -> rateGated req = true.
Proof.
  intros H. unfold rateGated.
  by rewrite (protected_is_api _ H), (protected_not_public _ H).
Qed.

(** ** The rate limiter, case by case *)

Lemma checkRateLimit_spec now ip (m : RateTable) :
  RateStep now ip m (checkRateLimit now ip m).
Proof.
  unfold checkRateLimit. destruct (m !! ip) as [r|] eqn:Hr.
  - destruct (Z.gtb_spec (now - timestamp r) RATE_LIMIT_WINDOW) as [Hw|Hw].
    + apply rate_reset with r; [done|]. unfold expired. lia.
    + destruct (Z.geb_spec (count r) RATE_LIMIT_MAX) as [Hc|Hc].
      * apply rate_reject with r; [done|lia|lia].
      * by apply (rate_count now ip m r).
  - by apply rate_first.
Qed.

Lemma checkRateLimit_others now ip ip' (m : RateTable) :
  ip' <> ip -> snd (checkRateLimit now ip m) !! ip' = m !! ip'.
Proof.
  intros Hne. destruct (checkRateLimit_spec now ip m); simpl;
    by rewrite ?lookup_insert_ne.
Qed.

(** ** The middleware, stage by stage *)

Lemma middleware_not_gated env now req (m : RateTable) :
  rateGated req = false ->
  middleware env now req m =
    {| response := NextResponse_next; table := m; console := [] |}.
Proof.
  unfold rateGated, middleware. cbv zeta.
  destruct (startsWith (pathname req) "/api/"); [|done].
  by destruct (isPublicRoute (pathname req)).
Qed.

Lemma middleware_gated_table env now req (m : RateTable) :
  rateGated req = true ->
  table (middleware env now req m) = snd (checkRateLimit now (clientIp req) m).
Proof.
  unfold rateGated, middleware. cbv zeta.
  intros [-> ->%negb_true_iff]%andb_prop. cbn [negb].
  destruct (checkRateLimit now (clientIp req) m) as [[] m'];
    cbn [negb snd]; [|done].
  destruct (isProtectedRoute (pathname req)); [|done].
  destruct (truthy (DASHBOARD_API_KEY env)); cbn [negb]; [|done].
  by destruct (bool_decide _).
Qed.

Lemma middleware_over_ceiling env now req (m : RateTable) :
  rateGated req = true -> underCeiling now req m = false ->
  middleware env now req m =
    {| response := rateLimitedResponse; table := m;
       console := [(console_warn, "[SECURITY] Rate limit exceeded for "
                      ++ clientIp req ++ ": " ++ pathname req)] |}.
Proof.
  unfold rateGated, underCeiling, middleware. cbv zeta.
  intros [-> ->%negb_true_iff]%andb_prop. cbn [negb].
  destruct (checkRateLimit_spec now (clientIp req) m); simpl; done.
Qed.

Lemma middleware_under_ceiling env now req (m : RateTable) :
  rateGated req = true -> underCeiling now req m = true ->
  middleware env now req m =
    let m' := snd (checkRateLimit now (clientIp req) m) in
    if isProtectedRoute (pathname req) then
      if negb (truthy (DASHBOARD_API_KEY env)) then
        {| response := NextResponse_next; table := m';
           console := [(console_log,
             "[INFO] DASHBOARD_API_KEY not set - allowing unauthenticated access to: "
               ++ pathname req)] |}
      else if negb (bool_decide (apiKey req = DASHBOARD_API_KEY env)) then
        {| response := unauthorizedResponse; table := m';
           console := [(console_warn,
             "[SECURITY] Unauthorized API access attempt: " ++ pathname req
               ++ " from " ++ clientIp req)] |}
      else {| response := securedResponse; table := m'; console := [] |}
    else {| response := securedResponse; table := m'; console := [] |}.
Proof.
  unfold rateGated, underCeiling, middleware. cbv zeta.
  intros [-> ->%negb_true_iff]%andb_prop. cbn [negb].
  destruct (checkRateLimit now (clientIp req) m) as [ok m']. cbn [fst snd].
  by intros ->.
Qed.

Lemma status_429_over_ceiling env now req (m : RateTable) :
  status (response (middleware env now req m)) = 429 ->
  rateGated req = true /\ underCeiling now req m = false.
Proof.
  destruct (rateGated req) eqn:Hg.
  - destruct (underCeiling now req m) eqn:Hu; [|done].
    rewrite (middleware_under_ceiling _ _ _ _ Hg Hu). cbv zeta.
    destruct (isProtectedRoute _); [|done].
    destruct (truthy _); cbn [negb]; [|done].
    by destruct (bool_decide _).
  - by rewrite (middleware_not_gated _ _ _ _ Hg).
Qed.

Lemma forwarded_under_ceiling env now req (m : RateTable) :
  rateGated req = true -> underCeiling now req m = true ->
  forwarded (response (middleware env now req m)) = credentialsPass env req.
Proof.
  intros Hg Hu. rewrite (middleware_under_ceiling _ _ _ _ Hg Hu). cbv zeta.
  unfold credentialsPass, secretConfigured.
  destruct (isProtectedRoute _); [|done].
  destruct (truthy _); cbn [negb orb]; [|done].
  by destruct (bool_decide _).
Qed.

Lemma unauthorized_under_ceiling env now req (m : RateTable) :
  rateGated req = true -> underCeiling now req m = true ->
  credentialsPass env req = false ->
  response (middleware env now req m) = unauthorizedResponse.
Proof.
  intros Hg Hu. rewrite (middleware_under_ceiling _ _ _ _ Hg Hu). cbv zeta.
  unfold credentialsPass, secretConfigured.
  destruct (isProtectedRoute _); [|done].
  destruct (truthy _); cbn [negb orb]; [|done].
  by destruct (bool_decide _).
Qed.

(** ** Window reset *)

(** C2, as stated: every request at a time [now] with [now - T0] strictly
    greater than the window duration resets the identifier's count to 1 and
    is admitted.  It fails in two ways.  A request to a protected route with
    a wrong key does reset the record, but it is answered 401 and not
    forwarded; and a request to a public route is forwarded but leaves the
    elapsed record as it was. *)
Lemma C2_window_reset_counterexample :
  let m : RateTable := {["1.2.3.4" := {| timestamp := 0; count := 100 |}]} in
  let wrong := request_of "/api/settings"
                 [("x-real-ip", "1.2.3.4"); ("x-api-key", "wrong")] [] in
  let public := request_of "/api/health" [("x-real-ip", "1.2.3.4")] [] in
  (m !! clientIp wrong = Some {| timestamp := 0; count := 100 |} /\
   70001 - 0 > RATE_LIMIT_WINDOW /\
   table (middleware secret_abc123 70001 wrong m) !! clientIp wrong
     = Some {| timestamp := 70001; count := 1 |} /\
   status (response (middleware secret_abc123 70001 wrong m)) = 401 /\
   forwarded (response (middleware secret_abc123 70001 wrong m)) <> true) /\
  (m !! clientIp public = Some {| timestamp := 0; count := 100 |} /\
   forwarded (response (middleware secret_abc123 70001 public m)) = true /\
   table (middleware secret_abc123 70001 public m) !! clientIp public
     <> Some {| timestamp := 70001; count := 1 |}).
Proof.
  intros m wrong public. split.
  - repeat split; try reflexivity. vm_compute. discriminate.
  - repeat split; try reflexivity. vm_compute. discriminate.
Qed.

(** C2, amended.  For a request that reaches the rate limiter (an API path
    that is not public) from an identifier whose record has window start
    T0, at a time [now] with [now - T0] strictly greater than the window
    duration: the record is replaced by count 1 with window start [now],
    whatever the prior count was, and the request passes the rate limiter
    (it is not answered 429).  It is then forwarded exactly when the
    credential check passes (route not protected, or no secret configured,
    or the key is the secret), and answered 401 otherwise. *)
Theorem C2_window_reset env now req (m : RateTable) r :
  rateGated req = true ->
  m !! clientIp req = Some r ->
  now - timestamp r > RATE_LIMIT_WINDOW ->
  checkRateLimit now (clientIp req) m
    = (true, <[clientIp req := {| timestamp := now; count := 1 |}]> m) /\
  table (middleware env now req m)
    = <[clientIp req := {| timestamp := now; count := 1 |}]> m /\
  status (response (middleware env now req m)) <> 429 /\
  forwarded (response (middleware env now req m)) = credentialsPass env req /\
  (credentialsPass env req = false ->
   response (middleware env now req m) = unauthorizedResponse).
Proof.
  intros Hg Hr Hexp.
  assert (Hrl : checkRateLimit now (clientIp req) m
                = (true, <[clientIp req := {| timestamp := now; count := 1 |}]> m)).
  { unfold checkRateLimit. rewrite Hr.
    destruct (Z.gtb_spec (now - timestamp r) RATE_LIMIT_WINDOW); [done|lia]. }
  assert (Hu : underCeiling now req m = true).
  { unfold underCeiling. by rewrite Hrl. }
  split; [done|]. split; [by rewrite middleware_gated_table, Hrl|].
  split; [|split].
  - intros [_ Hu']%status_429_over_ceiling. congruence.
  - by apply forwarded_under_ceiling.
  - by apply unauthorized_under_ceiling.
Qed.

Lemma C2_window_reset_witness :
  let req := request_of "/api/goals"
               [("x-forwarded-for", "1.2.3.4, 10.0.0.1"); ("x-api-key", "abc123")] [] in
  let m : RateTable := {["1.2.3.4" := {| timestamp := 10000; count := 100 |}]} in
  table (middleware secret_abc123 70001 req m)
    = <[clientIp req := {| timestamp := 70001; count := 1 |}]> m /\
  status (response (middleware secret_abc123 70001 req m)) <> 429 /\
  forwarded (response (middleware secret_abc123 70001 req m)) = true.
Proof.
  intros req m.
  destruct (C2_window_reset secret_abc123 70001 req m
              {| timestamp := 10000; count := 100 |})
    as (_ & Ht & Hs & Hf & _).
  - reflexivity.
  - reflexivity.
  - reflexivity.
  - split; [exact Ht|]. split; [exact Hs|]. rewrite Hf. reflexivity.
Defined.

(** ** Fail-open default *)

(** C4. With no shared secret configured, every request to a protected
    route that is under the rate ceiling is forwarded, whatever credential
    it carries or lacks, and one line saying so is written to the
    console. *)
Theorem C4_fail_open env now req (m : RateTable) :
  secretConfigured env = false ->
  isProtectedRoute (pathname req) = true ->
  underCeiling now req m = true ->
  response (middleware env now req m) = NextResponse_next /\
  forwarded (response (middleware env now req m)) = true /\
  console (middleware env now req m)
    = [(console_log,
        "[INFO] DASHBOARD_API_KEY not set - allowing unauthenticated access to: "
          ++ pathname req)].
Proof.
  unfold secretConfigured. intros Hs Hp Hu.
  rewrite (middleware_under_ceiling _ _ _ _ (protected_rateGated _ Hp) Hu).
  cbv zeta. by rewrite Hp, Hs.
Qed.

Lemma C4_fail_open_witness :
  let req := request_of "/api/settings" [] [] in
  apiKey req = None /\
  response (middleware no_secret 0 req ∅) = NextResponse_next /\
  forwarded (response (middleware no_secret 0 req ∅)) = true /\
  console (middleware no_secret 0 req ∅)
    = [(console_log,
        "[INFO] DASHBOARD_API_KEY not set - allowing unauthenticated access to: "
          ++ pathname req)].
Proof.
  intros req. split; [reflexivity|].
  apply (C4_fail_open no_secret 0 req ∅); reflexivity.
Defined.

(** ** Credential enforcement *)



(** ** Public-route bypass *)

(** C6. A request whose path starts with a public-route prefix is forwarded
    at once: the outcome is the plain forward with the table handed back
    as it was, and it is the same for every table, every secret, every
    credential and every clock reading, so the identifier's record is
    neither consulted nor changed. *)
Theorem C6_public_bypass env now req (m : RateTable) :
  isPublicRoute (pathname req) = true ->
  middleware env now req m
    = {| response := NextResponse_next; table := m; console := [] |} /\
  forwarded (response (middleware env now req m)) = true /\
  table (middleware env now req m) !! clientIp req = m !! clientIp req /\
  (forall env' now' (m' : RateTable),
     response (middleware env' now' req m') = response (middleware env now req m)).
Proof.
  intros Hp.
  assert (Hg : rateGated req = false).
  { unfold rateGated. rewrite Hp. apply andb_false_r. }
  rewrite !(middleware_not_gated _ _ _ _ Hg). repeat split; try done.
  intros. by rewrite (middleware_not_gated _ _ _ _ Hg).
Qed.

Lemma C6_public_bypass_witness :
  let req := request_of "/api/health" [("x-real-ip", "5.6.7.8")] [] in
  let m : RateTable := {["5.6.7.8" := {| timestamp := 0; count := 100 |}]} in
  underCeiling 10 (request_of "/api/goals" [("x-real-ip", "5.6.7.8")] []) m = false /\
  middleware secret_abc123 10 req m
    = {| response := NextResponse_next; table := m; console := [] |}.
Proof.
  intros req m. split; [reflexivity|].
  apply (C6_public_bypass secret_abc123 10 req m). reflexivity.
Defined.

(** ** Rejections *)

Lemma not_forwarded_cases env now req (m : RateTable) :
  forwarded (response (middleware env now req m)) = false ->
  (underCeiling now req m = false /\
   response (middleware env now req m) = rateLimitedResponse) \/
  (underCeiling now req m = true /\
   isProtectedRoute (pathname req) = true /\
   secretConfigured env = true /\
   apiKey req <> DASHBOARD_API_KEY env /\
   response (middleware env now req m) = unauthorizedResponse).
Proof.
  destruct (rateGated req) eqn:Hg.
  - destruct (underCeiling now req m) eqn:Hu.
    + rewrite (middleware_under_ceiling _ _ _ _ Hg Hu). cbv zeta.
      unfold secretConfigured.
      destruct (isProtectedRoute _); [|done].
      destruct (truthy _); cbn [negb]; [|done].
      case_bool_decide; cbn [negb]; [done|]. intros _. by right.
    + rewrite (middleware_over_ceiling _ _ _ _ Hg Hu). by left.
  - by rewrite (middleware_not_gated _ _ _ _ Hg).
Qed.

(** C7. A response that is not a forward carries none of the three security
    headers, and it is one of two: the rate-limit rejection, status 429 with
    a Retry-After header of 60 and an error object as body, sent when the
    request is over the ceiling; or the unauthorized rejection, status 401
    with an error object as body and no Retry-After header, sent when a
    protected route is asked with a key that differs from the configured
    secret. *)
Theorem C7_rejected_responses env now req (m : RateTable) :
  forwarded (response (middleware env now req m)) = false ->
  let r := response (middleware env now req m) in
  noSecurityHeaders r /\
  ((underCeiling now req m = false /\
    status r = 429 /\
    response_headers r !! "Retry-After" = Some "60" /\
    body r = JsonBody [("error", "Rate limit exceeded. Please slow down.")]) \/
   (underCeiling now req m = true /\
    isProtectedRoute (pathname req) = true /\
    secretConfigured env = true /\
    apiKey req <> DASHBOARD_API_KEY env /\
    status r = 401 /\
    response_headers r !! "Retry-After" = None /\
    body r = JsonBody [("error", "Unauthorized - Invalid or missing API key")])).
Proof.
  intros Hf r. subst r.
  destruct (not_forwarded_cases _ _ _ _ Hf)
    as [[Hu ->]|(Hu & Hp & Hs & Hk & ->)].
  - split; [by repeat split|]. left. by repeat split.
  - split; [by repeat split|]. right. by repeat split.
Qed.

Lemma C7_rejected_responses_witness :
  let req := request_of "/api/settings" [("x-api-key", "wrong")] [] in
  let full : RateTable := {["unknown" := {| timestamp := 0; count := 100 |}]} in
  (noSecurityHeaders (response (middleware secret_abc123 10 req full)) /\
   status (response (middleware secret_abc123 10 req full)) = 429) /\
  (noSecurityHeaders (response (middleware secret_abc123 10 req ∅)) /\
   status (response (middleware secret_abc123 10 req ∅)) = 401).
Proof.
  intros req full. split.
  - destruct (C7_rejected_responses secret_abc123 10 req full) as [Hn Hc];
      [reflexivity|]. split; [exact Hn|reflexivity].
  - destruct (C7_rejected_responses secret_abc123 10 req ∅) as [Hn Hc];
      [reflexivity|]. split; [exact Hn|reflexivity].
Defined.

(** C8. When a request is rejected for exceeding the rate ceiling, the rate
    table comes back exactly as it was: the identifier's count is not
    incremented and its window start is not modified. *)
Theorem C8_rejection_keeps_table env now req (m : RateTable) :
  status (response (middleware env now req m)) = 429 ->
  checkRateLimit now (clientIp req) m = (false, m) /\
  table (middleware env now req m) = m /\
  table (middleware env now req m) !! clientIp req = m !! clientIp req.
Proof.
  intros [Hg Hu]%status_429_over_ceiling.
  rewrite (middleware_over_ceiling _ _ _ _ Hg Hu). cbn [table].
  split; [|done]. unfold underCeiling in Hu.
  by destruct (checkRateLimit_spec now (clientIp req) m).
Qed.

Lemma C8_rejection_keeps_table_witness :
  let req := request_of "/api/goals" [("x-real-ip", "1.2.3.4")] [] in
  let m : RateTable := {["1.2.3.4" := {| timestamp := 0; count := 100 |}]} in
  table (middleware secret_abc123 60000 req m) = m.
Proof.
  intros req m.
  apply (C8_rejection_keeps_table secret_abc123 60000 req m). reflexivity.
Defined.

(** ** Unauthorized requests and the rate table *)

Lemma status_401_cases env now req (m : RateTable) :
  status (response (middleware env now req m)) = 401 ->
  rateGated req = true /\ underCeiling now req m = true /\
  isProtectedRoute (pathname req) = true.
Proof.
  destruct (rateGated req) eqn:Hg.
  - destruct (underCeiling now req m) eqn:Hu.
    + rewrite (middleware_under_ceiling _ _ _ _ Hg Hu). cbv zeta.
      destruct (isProtectedRoute _); [|done].
      destruct (truthy _); cbn [negb]; [|done].
      by destruct (bool_decide _).
    + by rewrite (middleware_over_ceiling _ _ _ _ Hg Hu).
  - by rewrite (middleware_not_gated _ _ _ _ Hg).
Qed.

(** C10. A request that ends in the unauthorized rejection (status 401) was
    to a protected route and has used a slot of its identifier: either the
    identifier had no record or an elapsed one and now has count 1 with
    window start [now], or its record was in its window below the ceiling
    and its count is one higher. *)
Theorem C10_unauthorized_consumes_slot env now req (m : RateTable) :
  status (response (middleware env now req m)) = 401 ->
  let ip := clientIp req in
  let m' := table (middleware env now req m) in
  isProtectedRoute (pathname req) = true /\
  (((m !! ip = None \/ exists r, m !! ip = Some r /\ expired now r) /\
    m' !! ip = Some {| timestamp := now; count := 1 |}) \/
   (exists r, m !! ip = Some r /\
      now - timestamp r <= RATE_LIMIT_WINDOW /\ count r < RATE_LIMIT_MAX /\
      m' !! ip = Some {| timestamp := timestamp r; count := count r + 1 |})).
Proof.
  intros (Hg & Hu & Hp)%status_401_cases ip m'. subst ip m'.
  split; [done|]. rewrite (middleware_gated_table _ _ _ _ Hg).
  unfold underCeiling in Hu.
  destruct (checkRateLimit_spec now (clientIp req) m) as [Hr|r Hr He|r Hr Hw Hc|r Hr Hw Hc];
    cbn [fst snd] in *; rewrite ?lookup_insert_eq.
  - left. split; [by left|done].
  - left. split; [right; by exists r|done].
  - done.
  - right. exists r. by repeat split.
Qed.

Lemma C10_unauthorized_consumes_slot_witness :
  let req := request_of "/api/settings" [("x-api-key", "wrong"); ("x-real-ip", "1.2.3.4")] [] in
  let m : RateTable := {["1.2.3.4" := {| timestamp := 0; count := 41 |}]} in
  status (response (middleware secret_abc123 10 req m)) = 401 /\
  table (middleware secret_abc123 10 req m) !! "1.2.3.4"
    = Some {| timestamp := 0; count := 42 |}.
Proof.
  intros req m. split; [reflexivity|].
  destruct (C10_unauthorized_consumes_slot secret_abc123 10 req m)
    as [_ [[[Hn|(r & Hr & He)] _]|(r & Hr & _ & _ & H)]]; [reflexivity | | | ].
  - vm_compute in Hn. discriminate.
  - injection Hr as <-. vm_compute in He. discriminate.
  - injection Hr as <-. exact H.
Defined.

(** ** Security headers *)

(** Where the three headers are attached: on the requests that reach the
    end of the middleware. *)
Lemma security_headers_at_the_end env now req (m : RateTable) :
  rateGated req = true ->
  underCeiling now req m = true ->
  isProtectedRoute (pathname req) = false \/
    (secretConfigured env = true /\ apiKey req = DASHBOARD_API_KEY env) ->
  forwarded (response (middleware env now req m)) = true /\
  hasSecurityHeaders (response (middleware env now req m)).
Proof.
  intros Hg Hu Hc. rewrite (middleware_under_ceiling _ _ _ _ Hg Hu). cbv zeta.
  destruct Hc as [->|[Hs Hk]].
  - by repeat split.
  - unfold secretConfigured in Hs. rewrite Hs, bool_decide_eq_true_2 by done.
    destruct (isProtectedRoute _); by repeat split.
Qed.

(** C3. The specification asks for the three security headers on every
    request that passes all checks, the protected route with no secret
    configured included.  On that path the middleware returns before the
    headers are set: a request to [/api/goals] with no secret configured
    passes every check, is forwarded, and carries none of the three. *)
Theorem C3_fail_open_lacks_security_headers :
  let req := request_of "/api/goals" [] [] in
  let o := middleware no_secret 0 req ∅ in
  rateGated req = true /\
  underCeiling 0 req ∅ = true /\
  isProtectedRoute (pathname req) = true /\
  secretConfigured no_secret = false /\
  forwarded (response o) = true /\
  noSecurityHeaders (response o) /\
  ~ hasSecurityHeaders (response o).
Proof.
  intros req o. repeat split; try reflexivity.
  intros [H _]. vm_compute in H. discriminate.
Qed.

(** ** Ceiling enforcement over a run *)

Lemma not_counted_keeps_record env now req ip (m : RateTable) :
  countedFor ip req = false ->
  table (middleware env now req m) !! ip = m !! ip.
Proof.
  unfold countedFor. destruct (rateGated req) eqn:Hg; cbn [andb].
  - intros Hne%bool_decide_eq_false.
    rewrite (middleware_gated_table _ _ _ _ Hg).
    by apply checkRateLimit_others.
  - intros _. by rewrite (middleware_not_gated _ _ _ _ Hg).
Qed.











(** ** The invariant of the rate table *)

Lemma middleware_step_record env now req ip (m : RateTable) :
  table (middleware env now req m) !! ip = m !! ip \/
  (rateGated req = true /\ ip = clientIp req /\
   RateStep now ip m (checkRateLimit now ip m) /\
   table (middleware env now req m) = snd (checkRateLimit now ip m)).
Proof.
  destruct (countedFor ip req) eqn:Hc.
  - right. apply andb_prop in Hc as [Hg <-%bool_decide_eq_true].
    repeat split; [done|apply checkRateLimit_spec|by apply middleware_gated_table].
  - left. by apply not_counted_keeps_record.
Qed.

Lemma reachable_count_bounds env (m : RateTable) :
  reachable env m ->
  forall ip r, m !! ip = Some r -> 1 <= count r <= RATE_LIMIT_MAX.
Proof.
  induction 1 as [|m now req Hm IH]; intros ip r Hr.
  - by rewrite lookup_empty in Hr.
  - destruct (middleware_step_record env now req ip m) as [Heq|(_ & _ & Hs & Ht)].
    + rewrite Heq in Hr. by apply (IH ip).
    + rewrite Ht in Hr.
      inversion Hs as [Hn Hcr|r0 Hr0 He Hcr|r0 Hr0 Hw Hc Hcr|r0 Hr0 Hw Hc Hcr];
        rewrite <- Hcr in Hr; cbn [snd] in Hr.
      * rewrite lookup_insert_eq in Hr. injection Hr as <-. simpl.
        unfold RATE_LIMIT_MAX. lia.
      * rewrite lookup_insert_eq in Hr. injection Hr as <-. simpl.
        unfold RATE_LIMIT_MAX. lia.
      * by apply (IH ip).
      * rewrite lookup_insert_eq in Hr. injection Hr as <-. simpl.
        specialize (IH ip r0 Hr0). lia.
Qed.

(** C9. In every table the process can reach, and after one more call of
    the middleware on it, each identifier has at most one record (the table
    is a map keyed by identifier), and whenever the call leaves a record
    with a higher count than before, the record was in its window at the
    time of the call ([now - windowStart <= windowDuration]), the count
    went up by exactly one and the window start is unchanged. *)
Theorem C9_rate_table_invariant env now req (m : RateTable) :
  reachable env m ->
  let m' := table (middleware env now req m) in
  reachable env m' /\
  NoDup (fst <$> map_to_list m') /\
  (forall ip r1 r2,
     (ip, r1) ∈ map_to_list m' -> (ip, r2) ∈ map_to_list m' -> r1 = r2) /\
  (forall ip r r',
     m !! ip = Some r -> m' !! ip = Some r' -> count r < count r' ->
     now - timestamp r <= RATE_LIMIT_WINDOW /\
     count r' = count r + 1 /\ timestamp r' = timestamp r).
Proof.
  intros Hm m'. subst m'. split; [by apply reachable_call|].
  split; [apply NoDup_fst_map_to_list|]. split.
  - intros ip r1 r2 H1%elem_of_map_to_list H2%elem_of_map_to_list. congruence.
  - intros ip r r' Hr Hr' Hlt.
    pose proof (reachable_count_bounds env m Hm ip r Hr) as Hb.
    destruct (middleware_step_record env now req ip m) as [Heq|(_ & _ & Hs & Ht)].
    + rewrite Heq, Hr in Hr'. injection Hr' as <-. lia.
    + rewrite Ht in Hr'.
      inversion Hs as [Hn Hcr|r0 Hr0 He Hcr|r0 Hr0 Hw Hc Hcr|r0 Hr0 Hw Hc Hcr];
        rewrite <- Hcr in Hr'; cbn [snd] in Hr'.
      * congruence.
      * rewrite lookup_insert_eq in Hr'. injection Hr' as <-. simpl in Hlt. lia.
      * rewrite Hr in Hr'. injection Hr' as <-. lia.
      * rewrite lookup_insert_eq in Hr'. injection Hr' as <-.
        rewrite Hr in Hr0. injection Hr0 as <-. by repeat split.
Qed.

Lemma C9_rate_table_invariant_witness :
  let req := request_of "/api/goals" [("x-real-ip", "1.2.3.4")] [] in
  let m := table (middleware no_secret 0 req ∅) in
  let m' := table (middleware no_secret 10 req m) in
  m !! "1.2.3.4" = Some {| timestamp := 0; count := 1 |} /\
  m' !! "1.2.3.4" = Some {| timestamp := 0; count := 2 |} /\
  NoDup (fst <$> map_to_list m') /\
  10 - 0 <= RATE_LIMIT_WINDOW.
Proof.
  intros req m m'.
  assert (Hm : reachable no_secret m) by apply reachable_call, reachable_start.
  destruct (C9_rate_table_invariant no_secret 10 req m Hm) as (_ & Hnd & _ & Hinc).
  assert (H1 : m !! "1.2.3.4" = Some {| timestamp := 0; count := 1 |}) by reflexivity.
  assert (H2 : m' !! "1.2.3.4" = Some {| timestamp := 0; count := 2 |}) by reflexivity.
  split; [exact H1|]. split; [exact H2|]. split; [exact Hnd|].
  apply (Hinc "1.2.3.4" _ _ H1 H2). simpl. lia.
Defined.

(** * Further properties of the middleware *)

(** ** Which requests leave a trace *)

(** X1. A request that is not rate-gated (not an API path, or a public
    route) comes back as the plain forward with the table as it was and
    nothing on the console; every rate-gated request changes the table or
    writes a console line. *)
Theorem trace_iff_rateGated env now req (m : RateTable) :
  (table (middleware env now req m) = m /\ console (middleware env now req m) = []
   <-> rateGated req = false) /\
  (middleware env now req m = untouched m <-> rateGated req = false).
Proof.
  assert (Hgated : rateGated req = true ->
            table (middleware env now req m) = m ->
            console (middleware env now req m) = [] -> False).
  { intros Hg Ht Hc. destruct (underCeiling now req m) eqn:Hu.
    - rewrite (middleware_gated_table _ _ _ _ Hg) in Ht.
      unfold underCeiling in Hu.
      destruct (checkRateLimit_spec now (clientIp req) m)
        as [Hr|r Hr He|r Hr Hw Hcnt|r Hr Hw Hcnt]; cbn [fst snd] in *.
      + rewrite <- Ht, lookup_insert_eq in Hr. discriminate.
      + rewrite <- Ht, lookup_insert_eq in Hr. injection Hr as <-.
        unfold expired, fresh_record, RATE_LIMIT_WINDOW in He. simpl in He. lia.
      + discriminate.
      + rewrite <- Ht, lookup_insert_eq in Hr. injection Hr as Hr.
        apply (f_equal count) in Hr. simpl in Hr. lia.
    - rewrite (middleware_over_ceiling _ _ _ _ Hg Hu) in Hc. discriminate. }
  split; split.
  - intros [Ht Hc]. destruct (rateGated req) eqn:Hg; [|done].
    destruct (Hgated eq_refl Ht Hc).
  - intros Hg. by rewrite (middleware_not_gated _ _ _ _ Hg).
  - intros Ho. destruct (rateGated req) eqn:Hg; [|done].
    rewrite Ho in Hgated. destruct (Hgated eq_refl eq_refl eq_refl).
  - intros Hg. by rewrite (middleware_not_gated _ _ _ _ Hg).
Qed.

(** ** The rate table under one call *)

(** X2. A call touches at most the record of the identifier of its own
    request: every other identifier's record, present or absent, is as
    before. *)
Theorem other_records_untouched env now req (m : RateTable) ip :
  ip <> clientIp req ->
  table (middleware env now req m) !! ip = m !! ip.
Proof.
  intros Hne. apply not_counted_keeps_record. unfold countedFor.
  rewrite bool_decide_eq_false_2 by congruence. apply andb_false_r.
Qed.

Lemma other_records_untouched_witness :
  let req := request_of "/api/goals" [("x-real-ip", "1.2.3.4")] [] in
  let m : RateTable := {["5.6.7.8" := {| timestamp := 0; count := 100 |}]} in
  table (middleware no_secret 70000 req m) !! "5.6.7.8"
    = Some {| timestamp := 0; count := 100 |}.
Proof.
  intros req m.
  rewrite (other_records_untouched no_secret 70000 req m "5.6.7.8").
  - reflexivity.
  - vm_compute. discriminate.
Defined.

Lemma middleware_dom env now req (m : RateTable) :
  dom (table (middleware env now req m))
    = if rateGated req then {[clientIp req]} ∪ dom m else dom m.
Proof.
  destruct (rateGated req) eqn:Hg.
  - rewrite (middleware_gated_table _ _ _ _ Hg).
    destruct (checkRateLimit_spec now (clientIp req) m)
      as [Hr|r Hr He|r Hr Hw Hcnt|r Hr Hw Hcnt]; cbn [snd];
      rewrite ?dom_insert_L; try done.
    apply elem_of_dom_2 in Hr.
    apply set_eq. intros x. rewrite elem_of_union, elem_of_singleton.
    split; [by right|]. by intros [->|].
  - by rewrite (middleware_not_gated _ _ _ _ Hg).
Qed.

(** X3. No call removes a record: the identifiers of the table after a
    call are those before it, plus the identifier of the request when the
    request is rate-gated; elapsed records of other identifiers stay. *)
Theorem records_never_removed env now req (m : RateTable) :
  dom (table (middleware env now req m))
    = (if rateGated req then {[clientIp req]} ∪ dom m else dom m) /\
  dom m ⊆ dom (table (middleware env now req m)) /\
  (size (table (middleware env now req m)) <= S (size m))%nat.
Proof.
  split; [apply middleware_dom|]. split.
  - rewrite middleware_dom. destruct (rateGated req); [|done].
    apply union_subseteq_r.
  - rewrite <- !size_dom, middleware_dom. destruct (rateGated req); [|lia].
    rewrite size_union_alt, size_singleton.
    assert (Hs : (size (dom m ∖ {[clientIp req]}) <= size (dom m))%nat).
    { apply subseteq_size. intros x [Hx _]%elem_of_difference. exact Hx. }
    lia.
Qed.

(** X6. The rate limiter refuses exactly when the identifier has a record
    whose window has not elapsed ([now - windowStart <= windowDuration],
    the instant [windowStart + windowDuration] included, and also when the
    clock has gone back) and whose count has reached the ceiling; the
    middleware answers 429 exactly for the rate-gated requests in that
    case. *)
Theorem rate_limit_rejects_iff env now req (m : RateTable) :
  (forall ip, fst (checkRateLimit now ip m) = false <->
     exists r, m !! ip = Some r /\ now - timestamp r <= RATE_LIMIT_WINDOW /\
               RATE_LIMIT_MAX <= count r) /\
  (status (response (middleware env now req m)) = 429 <->
     rateGated req = true /\
     exists r, m !! clientIp req = Some r /\
               now - timestamp r <= RATE_LIMIT_WINDOW /\
               RATE_LIMIT_MAX <= count r).
Proof.
  assert (Hrl : forall ip, fst (checkRateLimit now ip m) = false <->
     exists r, m !! ip = Some r /\ now - timestamp r <= RATE_LIMIT_WINDOW /\
               RATE_LIMIT_MAX <= count r).
  { intros ip. destruct (checkRateLimit_spec now ip m)
      as [Hr|r Hr He|r Hr Hw Hcnt|r Hr Hw Hcnt]; cbn [fst]; split; try done.
    - intros (r & Hr' & _). congruence.
    - intros (r' & Hr' & Hw & _). unfold expired in He.
      rewrite Hr in Hr'. injection Hr' as <-. lia.
    - intros _. by exists r.
    - intros (r' & Hr' & _ & Hc). rewrite Hr in Hr'. injection Hr' as <-. lia. }
  split; [exact Hrl|]. rewrite <- Hrl. split.
  - apply status_429_over_ceiling.
  - intros [Hg Hu]. by rewrite (middleware_over_ceiling _ _ _ _ Hg Hu).
Qed.

(** ** The rate table over a run *)

(** X4. After a run, the identifiers that have a record are those that had
    one before together with the identifiers of the rate-gated requests of
    the run; from the empty table, exactly the latter. *)
Theorem run_identifiers env evs :
  (forall m : RateTable,
     dom (tableAfter env m evs) = dom m ∪ gatedIdentifiers evs) /\
  dom (tableAfter env ∅ evs) = gatedIdentifiers evs.
Proof.
  assert (H : forall m : RateTable,
            dom (tableAfter env m evs) = dom m ∪ gatedIdentifiers evs).
  { unfold gatedIdentifiers.
    induction evs as [|[now req] evs IH]; intros m; cbn [tableAfter List.filter snd].
    - cbn. by rewrite (right_id_L ∅ (∪)).
    - rewrite IH, middleware_dom. destruct (rateGated req); [|done].
      rewrite fmap_cons, list_to_set_cons. cbn.
      rewrite (comm_L (∪) {[clientIp req]} (dom m)).
      by rewrite (assoc_L (∪)). }
  split; [exact H|]. by rewrite H, dom_empty_L, (left_id_L ∅ (∪)).
Qed.

Lemma recordsBoundedBy_step env now req seen (m : RateTable) :
  recordsBoundedBy seen m ->
  recordsBoundedBy (seen ++ [(now, req)]) (table (middleware env now req m)).
Proof.
  intros Hinv ip r Hr.
  assert (Hold : forall r0, m !! ip = Some r0 ->
            1 <= count r0 <= RATE_LIMIT_MAX /\
            count r0 <= Z.of_nat (length (List.filter
                          (fun ev => countedFor ip (snd ev)) (seen ++ [(now, req)]))) /\
            exists req0, In (timestamp r0, req0) (seen ++ [(now, req)]) /\
                         countedFor ip req0 = true).
  { intros r0 Hr0. destruct (Hinv ip r0 Hr0) as (Hb & Hc & req0 & Hin & Hcnt).
    split; [done|]. split.
    - rewrite List.filter_app, List.length_app. lia.
    - exists req0. split; [|done]. apply in_or_app. by left. }
  destruct (middleware_step_record env now req ip m) as [Heq|(Hg & Hip & Hs & Ht)].
  - rewrite Heq in Hr. by apply Hold.
  - assert (Hcnt : countedFor ip req = true).
    { unfold countedFor. by rewrite Hg, bool_decide_eq_true_2. }
    assert (Hnew : forall t, exists req0,
              In (t, req0) (seen ++ [(t, req)]) /\ countedFor ip req0 = true).
    { intros t. exists req. split; [|done]. apply in_or_app. right. by left. }
    assert (Hlen : Z.of_nat (length (List.filter
                     (fun ev => countedFor ip (snd ev)) (seen ++ [(now, req)])))
                   = Z.of_nat (length (List.filter
                       (fun ev => countedFor ip (snd ev)) seen)) + 1).
    { rewrite List.filter_app, List.length_app. cbn [List.filter snd].
      rewrite Hcnt. cbn [length]. lia. }
    rewrite Ht in Hr.
    inversion Hs as [Hn Hcr|r0 Hr0 He Hcr|r0 Hr0 Hw Hc Hcr|r0 Hr0 Hw Hc Hcr];
      rewrite <- Hcr in Hr; cbn [snd] in Hr.
    + rewrite lookup_insert_eq in Hr. injection Hr as <-. cbn [fresh_record count timestamp].
      split; [unfold RATE_LIMIT_MAX; lia|]. split; [lia|apply Hnew].
    + rewrite lookup_insert_eq in Hr. injection Hr as <-. cbn [fresh_record count timestamp].
      split; [unfold RATE_LIMIT_MAX; lia|]. split; [lia|apply Hnew].
    + by apply Hold.
    + rewrite lookup_insert_eq in Hr. injection Hr as <-. cbn [bumped count timestamp].
      destruct (Hinv ip r0 Hr0) as (Hb & Hc' & req0 & Hin & Hcnt0).
      split; [lia|]. split; [lia|]. exists req0. split; [|done].
      apply in_or_app. by left.
Qed.

Lemma recordsBoundedBy_run env evs : forall seen (m : RateTable),
  recordsBoundedBy seen m ->
  recordsBoundedBy (seen ++ evs) (tableAfter env m evs).
Proof.
  induction evs as [|[now req] evs IH]; intros seen m Hinv; cbn [tableAfter].
  - by rewrite app_nil_r.
  - replace (seen ++ (now, req) :: evs)%list
      with ((seen ++ [(now, req)]) ++ evs)%list by (by rewrite <- app_assoc).
    apply IH. by apply recordsBoundedBy_step.
Qed.

(** X5. After any run from the empty table, every record has a count
    between 1 and the ceiling that is at most the number of rate-gated
    requests its identifier made in the run, and its window start is the
    clock reading of one of those requests. *)
Theorem run_records_bounded env evs ip r :
  tableAfter env ∅ evs !! ip = Some r ->
  1 <= count r <= RATE_LIMIT_MAX /\
  count r <= Z.of_nat (length (List.filter (fun ev => countedFor ip (snd ev)) evs)) /\
  exists req, In (timestamp r, req) evs /\ countedFor ip req = true.
Proof.
  apply (recordsBoundedBy_run env evs [] ∅). intros ip' r' Hr'.
  by rewrite lookup_empty in Hr'.
Qed.

Lemma run_records_bounded_witness :
  tableAfter secret_abc123 ∅ scenario !! "1.2.3.4"
    = Some {| timestamp := 1000; count := 100 |} /\
  100 <= Z.of_nat (length (List.filter
           (fun ev => countedFor "1.2.3.4" (snd ev)) scenario)).
Proof.
  assert (H : tableAfter secret_abc123 ∅ scenario !! "1.2.3.4"
              = Some {| timestamp := 1000; count := 100 |}) by (vm_compute; reflexivity).
  split; [exact H|].
  destruct (run_records_bounded secret_abc123 scenario "1.2.3.4" _ H) as (_ & Hc & _).
  exact Hc.
Defined.

(** ** Responses, headers and console lines *)

Lemma security_headers_at_the_end_witness :
  let req := request_of "/api/agents" [("x-real-ip", "1.2.3.4")] [] in
  isProtectedRoute (pathname req) = false /\
  forwarded (response (middleware secret_abc123 0 req ∅)) = true /\
  hasSecurityHeaders (response (middleware secret_abc123 0 req ∅)).
Proof.
  intros req. split; [reflexivity|].
  apply (security_headers_at_the_end secret_abc123 0 req ∅);
    [reflexivity | reflexivity | left; reflexivity].
Defined.

(** X8. What a call does to the rate table, and whether it answers 429,
    depends on the path, the identifier, the clock and the table only: the
    configured secret and the key the request carries play no part, so
    requests with the right key use up slots like any other. *)
Theorem accounting_ignores_credentials env env' now req req' (m : RateTable) :
  pathname req = pathname req' ->
  clientIp req = clientIp req' ->
  table (middleware env now req m) = table (middleware env' now req' m) /\
  (status (response (middleware env now req m)) = 429 <->
   status (response (middleware env' now req' m)) = 429).
Proof.
  intros Hp Hip.
  assert (Hg : rateGated req = rateGated req') by (unfold rateGated; by rewrite Hp).
  assert (Hu : underCeiling now req m = underCeiling now req' m)
    by (unfold underCeiling; by rewrite Hip).
  split.
  - destruct (rateGated req) eqn:Hg1; symmetry in Hg.
    + by rewrite !middleware_gated_table, Hip.
    + by rewrite !middleware_not_gated.
  - split; intros [Hg1 Hu1]%status_429_over_ceiling.
    + rewrite Hg in Hg1. rewrite Hu in Hu1.
      by rewrite (middleware_over_ceiling _ _ _ _ Hg1 Hu1).
    + rewrite <- Hg in Hg1. rewrite <- Hu in Hu1.
      by rewrite (middleware_over_ceiling _ _ _ _ Hg1 Hu1).
Qed.

Lemma accounting_ignores_credentials_witness :
  let good := request_of "/api/goals" [("x-real-ip", "1.2.3.4"); ("x-api-key", "abc123")] [] in
  let bad := request_of "/api/goals" [("x-real-ip", "1.2.3.4")] [] in
  let m : RateTable := {["1.2.3.4" := {| timestamp := 0; count := 7 |}]} in
  table (middleware secret_abc123 5 good m) = table (middleware no_secret 5 bad m).
Proof.
  intros good bad m.
  apply (accounting_ignores_credentials secret_abc123 no_secret 5 good bad m);
    reflexivity.
Defined.

(** X9. The two route lists do not overlap and lie under the API prefix:
    no path is both protected and public, and every protected or public
    path starts with [/api/], so none of them is skipped by the first test
    of the middleware. *)
Theorem route_lists_consistent p :
  isProtectedRoute p && isPublicRoute p = false /\
  implb (isProtectedRoute p || isPublicRoute p) (startsWith p "/api/") = true.
Proof.
  split.
  - destruct (isProtectedRoute p) eqn:Hp; [|done].
    by rewrite (protected_not_public _ Hp).
  - destruct (isProtectedRoute p) eqn:Hp.
    + by rewrite (protected_is_api _ Hp).
    + destruct (isPublicRoute p) eqn:Hq; [|done].
      by rewrite (public_is_api _ Hq).
Qed.


(** ** The key and the secret *)

(** X12. With a secret configured, on a protected route under the ceiling:
    a non-empty [x-api-key] header that differs from the secret is
    rejected whatever the [api_key] query parameter is, and when the header
    is absent or empty the query parameter alone decides. *)
Theorem header_key_takes_precedence env now req (m : RateTable) :
  secretConfigured env = true ->
  isProtectedRoute (pathname req) = true ->
  underCeiling now req m = true ->
  (truthy (headers_get req "x-api-key") = true ->
   headers_get req "x-api-key" <> DASHBOARD_API_KEY env ->
   response (middleware env now req m) = unauthorizedResponse) /\
  (truthy (headers_get req "x-api-key") = false ->
   response (middleware env now req m)
     = if bool_decide (searchParams_get req "api_key" = DASHBOARD_API_KEY env)
       then securedResponse else unauthorizedResponse).
Proof.
  unfold secretConfigured. intros Hs Hp Hu.
  rewrite (middleware_under_ceiling _ _ _ _ (protected_rateGated _ Hp) Hu).
  cbv zeta. rewrite Hp, Hs. cbn [negb]. unfold apiKey, js_or.
  split; intros ->.
  - intros Hne. by rewrite bool_decide_eq_false_2.
  - by destruct (bool_decide _).
Qed.

Lemma header_key_takes_precedence_witness :
  let hidden := request_of "/api/settings" [("x-api-key", "wrong")] [("api_key", "abc123")] in
  let query := request_of "/api/settings" [] [("api_key", "abc123")] in
  response (middleware secret_abc123 0 hidden ∅) = unauthorizedResponse /\
  response (middleware secret_abc123 0 query ∅) = securedResponse.
Proof.
  intros hidden query. split.
  - apply (header_key_takes_precedence secret_abc123 0 hidden ∅);
      [reflexivity | reflexivity | reflexivity | reflexivity
      | vm_compute; discriminate].
  - destruct (header_key_takes_precedence secret_abc123 0 query ∅) as [_ H];
      [reflexivity | reflexivity | reflexivity |].
    rewrite H; reflexivity.
Defined.

(** X13. A secret set to the empty string is no secret: the middleware
    behaves on every request as if the variable were not set, so protected
    routes are open. *)
Theorem empty_secret_is_no_secret now req (m : RateTable) :
  middleware {| DASHBOARD_API_KEY := Some "" |} now req m
    = middleware {| DASHBOARD_API_KEY := None |} now req m /\
  (forwarded (response (middleware {| DASHBOARD_API_KEY := Some "" |} now req m))
     = false ->
   response (middleware {| DASHBOARD_API_KEY := Some "" |} now req m)
     = rateLimitedResponse).
Proof.
  split; [reflexivity|]. intros Hf.
  by destruct (not_forwarded_cases _ _ _ _ Hf) as [[_ ->]|(_ & _ & Hs & _)].
Qed.

(** ** The identifier *)

Lemma split_first_piece sep s :
  exists w ws rest,
    split sep s = w :: ws /\ hasChar sep w = false /\ s = w ++ rest /\
    (rest = "" \/ exists rest', rest = String sep rest').
Proof.
  induction s as [|c s (w & ws & rest & Hs & Hw & Heq & Hrest)]; cbn [split].
  - exists "", [], "". repeat split; by left.
  - destruct (Ascii.eqb_spec c sep) as [->|Hne].
    + exists "", (split sep s), (String sep s). repeat split. right. by exists s.
    + rewrite Hs. exists (String c w), ws, rest. repeat split; [|by rewrite Heq|done].
      cbn [hasChar]. rewrite Hw. by apply Ascii.eqb_neq in Hne as ->.
Qed.

(** X10. The identifier is never empty, and it is one of three: the part of
    [x-forwarded-for] before its first comma, taken as it is, when that part
    is not empty; else the [x-real-ip] header when it is not empty; else
    [unknown]. *)
Theorem clientIp_cases req :
  clientIp req <> "" /\
  ((exists v rest,
      headers_get req "x-forwarded-for" = Some v /\
      v = clientIp req ++ rest /\
      hasChar "," (clientIp req) = false /\
      (rest = "" \/ exists rest', rest = String "," rest')) \/
   (noForwardedFor req /\ headers_get req "x-real-ip" = Some (clientIp req)) \/
   (noForwardedFor req /\
    (headers_get req "x-real-ip" = None \/ headers_get req "x-real-ip" = Some "") /\
    clientIp req = "unknown")).
Proof.
  assert (Hrest : forall o : option string,
            default "unknown" (js_or (js_or o (headers_get req "x-real-ip"))
                                     (Some "unknown")) <> "" /\
            (truthy o = false ->
             headers_get req "x-real-ip"
               = Some (default "unknown"
                         (js_or (js_or o (headers_get req "x-real-ip"))
                                (Some "unknown"))) \/
             ((headers_get req "x-real-ip" = None \/
               headers_get req "x-real-ip" = Some "") /\
              default "unknown"
                (js_or (js_or o (headers_get req "x-real-ip")) (Some "unknown"))
              = "unknown"))).
  { intros o. unfold js_or.
    destruct (truthy o) eqn:Ho.
    - rewrite Ho. split; [|done]. by destruct o as [[|c s]|].
    - destruct (headers_get req "x-real-ip") as [[|c s]|]; cbn; split; try done.
      + intros _. right. split; [by right|done].
      + intros _. by left.
      + intros _. right. split; [by left|done]. }
  unfold clientIp, noForwardedFor.
  destruct (headers_get req "x-forwarded-for") as [v|] eqn:Hv; cbn [mbind option_bind].
  - destruct (split_first_piece "," v) as (w & ws & rest & Hs & Hw & Heq & Hr).
    rewrite Hs. cbn [head].
    destruct (Hrest (Some w)) as [Hne Hfalsy]. split; [exact Hne|].
    destruct w as [|c w].
    + destruct (Hfalsy eq_refl) as [Hx|[Hx Hu]].
      * right. left. split; [|exact Hx].
        destruct Hr as [->|[rest' ->]]; [right; left; by rewrite Heq|].
        right. right. exists rest'. by rewrite Heq.
      * right. right. split; [|by split].
        destruct Hr as [->|[rest' ->]]; [right; left; by rewrite Heq|].
        right. right. exists rest'. by rewrite Heq.
    + left. exists v, rest. by repeat split.
  - destruct (Hrest None) as [Hne Hfalsy]. split; [exact Hne|].
    destruct (Hfalsy eq_refl) as [Hx|[Hx Hu]].
    + right. left. split; [by left|exact Hx].
    + right. right. split; [by left|by split].
Qed.

(** ** Fixed windows *)

(** X14. While a record's window has not elapsed, no call moves its window
    start, whoever makes the request and whatever the answer is: the record
    stays, with the same window start and a count that is the same or one
    higher.  The window is fixed, it does not slide with the requests. *)
Theorem live_window_is_fixed env now req (m : RateTable) ip r :
  m !! ip = Some r ->
  now - timestamp r <= RATE_LIMIT_WINDOW ->
  exists r', table (middleware env now req m) !! ip = Some r' /\
             timestamp r' = timestamp r /\
             count r <= count r' <= count r + 1.
Proof.
  intros Hr Hw.
  destruct (middleware_step_record env now req ip m) as [Heq|(_ & _ & Hs & Ht)].
  - exists r. rewrite Heq. split; [done|]. split; [done|lia].
  - rewrite Ht.
    inversion Hs as [Hn Hcr|r0 Hr0 He Hcr|r0 Hr0 Hw0 Hc Hcr|r0 Hr0 Hw0 Hc Hcr];
      cbn [snd].
    + congruence.
    + rewrite Hr in Hr0. injection Hr0 as <-. unfold expired in He. lia.
    + exists r. split; [done|]. split; [done|lia].
    + rewrite Hr in Hr0. injection Hr0 as <-. exists (bumped r).
      rewrite lookup_insert_eq. split; [done|]. split; [done|]. simpl. lia.
Qed.

Lemma live_window_is_fixed_witness :
  let req := request_of "/api/goals" [("x-real-ip", "1.2.3.4")] [] in
  let m : RateTable := {["1.2.3.4" := {| timestamp := 0; count := 100 |}]} in
  exists r', table (middleware no_secret 60000 req m) !! "1.2.3.4" = Some r' /\
             timestamp r' = 0 /\ 100 <= count r' <= 101.
Proof.
  intros req m.
  apply (live_window_is_fixed no_secret 60000 req m "1.2.3.4"
           {| timestamp := 0; count := 100 |}).
  - reflexivity.
  - vm_compute. discriminate.
Defined.
